(** * The Task entity of taipy ([taipy/task/task.py])

    A shallow embedding of the class [Task] and of the collaborators it
    imports, followed by the properties of the Task entity model:
    identity, identifier synthesis, input/output bindings, attribute-style
    access to data sources, scope derivation and the pickling hooks.

    Python objects are modelled by their instance dictionary ([vars(self)]),
    a finite map from attribute names to values; dictionaries of data
    sources are finite maps keyed by strings; exceptions are an explicit
    result type; the logging module is a list of emitted records that is
    threaded through the one method that logs. *)

From Stdlib Require Import ZArith Ascii String List.
From stdpp Require Import base strings gmap list option.

(* ===================================================================== *)
(** ** taipy.common: the name sanitizer                                    *)
(* ===================================================================== *)

Module Common.
Section Sanitizer.

(** The transliteration table of the unicode library, one character for
    one character as the docstring of [Task] has it. *)
Variable unidecode : ascii -> ascii.

Definition is_lower_alnum (c : ascii) : bool :=
  let n := N_of_ascii c in
  ((48 <=? n) && (n <=? 57) || (97 <=? n) && (n <=? 122))%N.

(** The characters the docstring recommends: lowercase alphanumerics, dash
    and underscore. *)
Definition is_recommended (c : ascii) : bool :=
  is_lower_alnum c || Ascii.eqb c "-" || Ascii.eqb c "_".

(** A character outside 7-bit ASCII. *)
Definition is_unicode (c : ascii) : bool := (128 <=? N_of_ascii c)%N.

Definition protect_char (c : ascii) : ascii :=
  if Ascii.eqb c " " then "_"%char
  else if is_unicode c then unidecode c
  else if is_recommended c then c
  else "-"%char.

(** Modelled from the spec: [protect_name] of [taipy.common] (the Name
    Sanitizer), which task.py imports and whose body is not among the
    sources.  The spec gives it as a deterministic total function on
    strings; the rules are those of the docstring of [Task]: the
    recommended characters are kept, a space becomes an underscore, a
    Unicode character becomes the alphanumeric character the unicode
    library gives for it, any other character becomes a dash.  The
    docstring leaves uppercase letters to its last rule, and does not say
    which alphanumeric characters the library answers with: whether this
    function is idempotent depends on the table (it is for a table that
    answers with lowercase alphanumerics, [protect_name_idempotent]
    below), so the model serves the examples and settles nothing about
    the sanitizer of the repository. *)
Fixpoint protect_name (name : string) : string :=
  match name with
  | EmptyString => EmptyString
  | String c rest => String (protect_char c) (protect_name rest)
  end.

End Sanitizer.
End Common.

(* ===================================================================== *)
(** ** taipy.data: scopes and data sources                                 *)
(* ===================================================================== *)

Module Data.

(** Modelled from the spec: the [Scope] enumeration of [taipy.data], not
    among the sources.  The spec names the levels and gives
    GLOBAL < CYCLE < PIPELINE < SCENARIO as an example of its total order.
    The Task definitions below take the scope type and its comparison as
    parameters; this enumeration only instantiates them in examples. *)
Inductive Scope : Type := GLOBAL | CYCLE | PIPELINE | SCENARIO.

Definition Scope_value (s : Scope) : nat :=
  match s with GLOBAL => 1 | CYCLE => 2 | PIPELINE => 3 | SCENARIO => 4 end.

(** [Scope.__lt__] *)
Definition Scope_lt (a b : Scope) : bool := Nat.ltb (Scope_value a) (Scope_value b).

End Data.

(** [taipy.data.data_source.DataSource], as far as the Task reads it: the
    attributes [config_name] and [scope].  A data source is held by
    reference; [ref] is the identity of the object, so that two data
    sources with the same name and scope remain distinguishable. *)
Module DataSource.
Record t {Scope : Type} : Type := mk {
  ref : nat;
  config_name : string;
  scope : Scope
}.
Arguments t : clear implicits.
End DataSource.

(* ===================================================================== *)
(** ** Python values, exceptions, logging                                  *)
(* ===================================================================== *)

Module Py.

(** The exceptions that the modelled code can raise. [RecursionError] is
    what reading a missing attribute ends in: [__getattr__] reads
    [self.input], whose getter reads the missing attribute again. *)
Inductive exn : Type :=
  AttributeError | KeyError | TypeError | ValueError | RecursionError.

Inductive result (A : Type) : Type :=
| Ok (a : A)
| Raise (e : exn).
Arguments Ok {A} a.
Arguments Raise {A} e.

(** Computations that may raise and that may emit log records. *)
Definition M (A : Type) : Type := list string -> result A * list string.

Definition ret {A} (a : A) : M A := fun log => (Ok a, log).
Definition raise {A} (e : exn) : M A := fun log => (Raise e, log).
Definition bind {A B} (m : M A) (k : A -> M B) : M B :=
  fun log =>
    match m log with
    | (Ok a, log') => k a log'
    | (Raise e, log') => (Raise e, log')
    end.
Definition lift {A} (r : result A) : M A := fun log => (r, log).

(** [logging.error(msg)]: one record is emitted. *)
Definition logging_error (msg : string) : M unit := fun log => (Ok tt, log ++ [msg]).

(** [k in d] and [d[k]] on a dict. *)
Definition contains {V} (d : gmap string V) (k : string) : bool :=
  bool_decide (is_Some (d !! k)).
Definition getitem {V} (d : gmap string V) (k : string) : result V :=
  match d !! k with
  | Some v => Ok v
  | None => Raise KeyError
  end.

(** [list(d.values())].  The values come in the order of the finite map,
    which is not the insertion order of a Python dict; the class uses them
    under [min] only, whose result over a total order does not depend on
    the order of the elements. *)
Definition values {V} (d : gmap string V) : list V := (map_to_list d).*2.

(** [min(iterable)] with [lt] for [<]: the first of the least elements;
    [None] stands for the ValueError on an empty iterable. *)
Definition min {A} (lt : A -> A -> bool) (l : list A) : option A :=
  match l with
  | [] => None
  | x :: rest => Some (fold_left (fun m y => if lt y m then y else m) rest x)
  end.

(** [a or b] on an optional string: [None] and the empty string are
    falsy, [b] is evaluated only then. *)
Definition or_str (a : option string) (b : string) : string :=
  match a with
  | Some (String c s) => String c s
  | Some EmptyString => b
  | None => b
  end.

End Py.

Notation "x <-- m ;; k" := (Py.bind m (fun x => k))
  (at level 100, m at next level, right associativity).

(* ===================================================================== *)
(** ** taipy.task.task: the class Task                                     *)
(* ===================================================================== *)

Module Task.
Section Defs.

Context {Scope Callable : Type}.

(** [taipy.common.protect_name], [Scope.__lt__], [Scope.GLOBAL] and the
    built-in [hash] on strings: the collaborators the class calls. *)
Variable protect_name : string -> string.
Variable scope_lt : Scope -> Scope -> bool.
Variable GLOBAL : Scope.
Variable hash : string -> Z.

(** The values the attributes of a Task hold: [None], a string, a dict of
    data sources, the user's callable. *)
Inductive value : Type :=
| VNone
| VStr (s : string)
| VDict (d : gmap string (DataSource.t Scope))
| VFun (f : Callable).

(** [Optional[str]] as a value. *)
Definition of_optional (o : option string) : value :=
  match o with
  | Some s => VStr s
  | None => VNone
  end.

Definition __ID_PREFIX : string := "TASK".
Definition __ID_SEPARATOR : string := "_".

(** [{ds.config_name: ds for ds in l}]: the entries are set one after the
    other, a later one replaces an earlier one under the same key. *)
Definition dict_by_config_name (l : list (DataSource.t Scope))
  : gmap string (DataSource.t Scope) :=
  fold_left (fun d ds => <[DataSource.config_name ds := ds]> d) l ∅.

(** [Task.__new__]: an instance with no attribute yet. *)
Definition __new__ : gmap string value := ∅.

(** [Task.__init__]. [self] is the instance dictionary before the call and
    the result the one after it. [uuid4] is what [str(uuid.uuid4())]
    evaluates to in this call (it is evaluated only when [id] is falsy).
    The attributes [__input] and [__output] are stored under their
    mangled names. *)
Definition __init__ (self : gmap string value) (config_name : string)
    (input : list (DataSource.t Scope)) (function : Callable)
    (output : option (list (DataSource.t Scope))) (id : option string)
    (parent_id : option string) (uuid4 : string) : gmap string value :=
  let self_config_name := protect_name config_name in
  let self := <["config_name" := VStr self_config_name]> self in
  let self := <["id" := VStr (Py.or_str id
                 (String.concat __ID_SEPARATOR
                    [__ID_PREFIX; self_config_name; uuid4]))]> self in
  let self := <["parent_id" := of_optional parent_id]> self in
  let self := <["_Task__input" := VDict (dict_by_config_name input)]> self in
  let self := <["_Task__output" :=
                 VDict (dict_by_config_name (default [] output))]> self in
  <["function" := VFun function]> self.

(** Reading an attribute that holds a string, resp. a dict.  The class
    binds these attributes in [__init__] only, always to a value of that
    kind (the id is the string passed or the synthesized one).  For an
    attribute bound to a value of another kind the model answers
    [TypeError]; this is a convention and not what Python does in every
    case (a [None] under [id] is hashed and formatted without error), and
    every property below is stated for instances whose id is a string and
    whose inputs and outputs are dicts.  A missing attribute sends Python
    to [__getattr__], which reads [self.input] and [self.id] again, until
    the interpreter gives up with RecursionError.  (Where [id] is missing
    and a data source is bound under the sanitized name of [id],
    [__getattr__] would find that data source instead; no method of the
    class leaves an instance in that state.) *)
Definition attr_str (self : gmap string value) (name : string) : Py.result string :=
  match self !! name with
  | Some (VStr s) => Py.Ok s
  | Some _ => Py.Raise Py.TypeError
  | None => Py.Raise Py.RecursionError
  end.

Definition attr_dict (self : gmap string value) (name : string)
  : Py.result (gmap string (DataSource.t Scope)) :=
  match self !! name with
  | Some (VDict d) => Py.Ok d
  | Some _ => Py.Raise Py.TypeError
  | None => Py.Raise Py.RecursionError
  end.

(** The properties [output] and [input]. *)
Definition output (self : gmap string value) := attr_dict self "_Task__output".
Definition input (self : gmap string value) := attr_dict self "_Task__input".

(** The attributes [id], [config_name] as the methods read them. *)
Definition id (self : gmap string value) := attr_str self "id".
Definition config_name (self : gmap string value) := attr_str self "config_name".

(** The attribute [function]. *)
Definition function (self : gmap string value) : Py.result Callable :=
  match self !! "function" with
  | Some (VFun f) => Py.Ok f
  | Some _ => Py.Raise Py.TypeError
  | None => Py.Raise Py.RecursionError
  end.

(** [Task.__hash__] *)
Definition __hash__ (self : gmap string value) : Py.result Z :=
  match id self with
  | Py.Ok i => Py.Ok (hash i)
  | Py.Raise e => Py.Raise e
  end.

(** [Task.__getstate__]: [vars(self)], the instance dictionary itself. *)
Definition __getstate__ (self : gmap string value) : gmap string value := self.

(** [Task.__setstate__]: [vars(self).update(state)]; every key of [state]
    is set in the instance dictionary, the other keys stay. *)
Definition __setstate__ (self state : gmap string value) : gmap string value :=
  state ∪ self.

(** [Task.__getattr__], which Python calls for a name that the instance
    dictionary and the class do not have. *)
Definition __getattr__ (self : gmap string value) (attribute_name : string)
  : Py.M (DataSource.t Scope) :=
  let protected_attribute_name := protect_name attribute_name in
  inp <-- Py.lift (input self) ;;
  if Py.contains inp protected_attribute_name
  then Py.lift (Py.getitem inp protected_attribute_name)
  else
    out <-- Py.lift (output self) ;;
    if Py.contains out protected_attribute_name
    then Py.lift (Py.getitem out protected_attribute_name)
    else
      i <-- Py.lift (id self) ;;
      _ <-- Py.logging_error
              (attribute_name +:+ " is not a data source of task " +:+ i) ;;
      Py.raise Py.AttributeError.

(** The property [scope]. *)
Definition scope (self : gmap string value) : Py.result Scope :=
  match input self with
  | Py.Raise e => Py.Raise e
  | Py.Ok inp =>
    match output self with
    | Py.Raise e => Py.Raise e
    | Py.Ok out =>
      let data_sources := Py.values inp ++ Py.values out in
      if negb (Nat.eqb (length data_sources) 0)
      then match Py.min scope_lt (DataSource.scope <$> data_sources) with
           | Some s => Py.Ok s
           | None => Py.Raise Py.ValueError
           end
      else Py.Ok GLOBAL
    end
  end.

(** *** Identity of instances

    The class defines [__hash__] and no [__eq__]: [a == b] on two tasks is
    the comparison inherited from [object], which holds for one and the
    same instance only.  Instances are therefore addresses in a store of
    instance dictionaries. *)

Definition object__eq__ (a b : nat) : bool := bool_decide (a = b).

(** [hash(a)] for the instance at address [a]; an address outside the
    store is no instance, and the answer there is an error. *)
Definition hash_at (heap : gmap nat (gmap string value)) (a : nat) : Py.result Z :=
  match heap !! a with
  | Some self => __hash__ self
  | None => Py.Raise Py.RecursionError
  end.

(** The test by which a set or a dict takes [b] for the key [a] it already
    holds: the same object, or equal hashes and [a == b]. *)
Definition same_key (heap : gmap nat (gmap string value)) (a b : nat) : Py.result bool :=
  match hash_at heap a with
  | Py.Raise e => Py.Raise e
  | Py.Ok ha =>
    match hash_at heap b with
    | Py.Raise e => Py.Raise e
    | Py.Ok hb =>
      Py.Ok (bool_decide (a = b) || (bool_decide (ha = hb) && object__eq__ a b))
    end
  end.

End Defs.
End Task.

(* ===================================================================== *)
(** ** Instances used in the examples                                      *)
(* ===================================================================== *)

Module Examples.

(** A transliteration table: every Unicode character goes to [x]. *)
Definition table (c : ascii) : ascii := "x"%char.

Definition sanitize : string -> string := Common.protect_name table.

Definition ds (r : nat) (name : string) (s : Data.Scope) : DataSource.t Data.Scope :=
  DataSource.mk Data.Scope r name s.

Definition sales : DataSource.t Data.Scope := ds 1 "sales" Data.SCENARIO.
Definition costs : DataSource.t Data.Scope := ds 2 "costs" Data.PIPELINE.
Definition report : DataSource.t Data.Scope := ds 3 "report" Data.CYCLE.

(** Two data sources whose names differ and sanitize to the same name. *)
Definition raw_named : DataSource.t Data.Scope := ds 4 "a b" Data.SCENARIO.
Definition clean_named : DataSource.t Data.Scope := ds 5 "a_b" Data.SCENARIO.

(** [Task("plan", [sales, costs], f, [report])]; the callable is named by a
    number. *)
Definition plan : gmap string (@Task.value Data.Scope nat) :=
  Task.__init__ sanitize Task.__new__ "plan" [sales; costs] 7%nat
    (Some [report]) None None "0b6e7a51-3a0c-4c43-9d8e-5d1a2f1c9e77".

(** [Task("x", [raw_named, clean_named], f)] *)
Definition shadowed : gmap string (@Task.value Data.Scope nat) :=
  Task.__init__ sanitize Task.__new__ "x" [raw_named; clean_named] 7%nat
    None (Some "T1") None "".

(** Two instances, at the addresses 0 and 1, constructed with the same
    explicit identifier and different config names. *)
Definition twins : gmap nat (gmap string (@Task.value Data.Scope nat)) :=
  <[0%nat := Task.__init__ sanitize Task.__new__ "first" [sales] 7%nat None
               (Some "T1") None ""]>
    (<[1%nat := Task.__init__ sanitize Task.__new__ "second" [sales] 7%nat None
                  (Some "T1") None ""]> ∅).

(** A blank instance, a data source with the config name of [sales] and a
    hash on strings, for the examples of the further properties. *)
Definition blank : gmap string (@Task.value Data.Scope nat) := Task.__new__.
Definition sales_copy : DataSource.t Data.Scope := ds 6 "sales" Data.CYCLE.
Definition length_hash (s : string) : Z := Z.of_nat (String.length s).

End Examples.

(* ===================================================================== *)
(** ** The name sanitizer                                                  *)
(* ===================================================================== *)

Section SanitizerFacts.

Variable unidecode : ascii -> ascii.

(** The unicode library answers with a lowercase alphanumeric character. *)
Hypothesis unidecode_alnum :
  forall c, Common.is_unicode c = true -> Common.is_lower_alnum (unidecode c) = true.

Lemma protect_char_recommended (c : ascii) :
  Common.is_recommended c = true -> Common.protect_char unidecode c = c.
Proof.
  destruct c as [[] [] [] [] [] [] [] []]; intros H;
    solve [ reflexivity | discriminate H ].
Qed.

Lemma protect_char_is_recommended (c : ascii) :
  Common.is_recommended (Common.protect_char unidecode c) = true.
Proof.
  unfold Common.protect_char.
  destruct (Ascii.eqb c " ") eqn:Hsp; [reflexivity|].
  destruct (Common.is_unicode c) eqn:Hu.
  - unfold Common.is_recommended. rewrite (unidecode_alnum c Hu). reflexivity.
  - destruct (Common.is_recommended c) eqn:Hr; [exact Hr | reflexivity].
Qed.

Lemma protect_name_idempotent (name : string) :
  Common.protect_name unidecode (Common.protect_name unidecode name)
  = Common.protect_name unidecode name.
Proof.
  induction name as [|c rest IH]; simpl; [reflexivity|].
  rewrite IH. f_equal.
  apply protect_char_recommended, protect_char_is_recommended.
Qed.

End SanitizerFacts.

Lemma table_alnum (c : ascii) :
  Common.is_unicode c = true -> Common.is_lower_alnum (Examples.table c) = true.
Proof. intros _. reflexivity. Qed.

Lemma sanitize_idempotent (name : string) :
  Examples.sanitize (Examples.sanitize name) = Examples.sanitize name.
Proof. apply protect_name_idempotent, table_alnum. Qed.

(* ===================================================================== *)
(** ** Construction                                                        *)
(* ===================================================================== *)

(** Reading an attribute back from the instance that [__init__] filled. *)
Ltac read_init :=
  unfold Task.id, Task.config_name, Task.input, Task.output, Task.function,
    Task.attr_str, Task.attr_dict, Task.__init__;
  by simplify_map_eq.

Section Construction.

Context {Scope Callable : Type}.
Variable protect_name : string -> string.

Implicit Types self state : gmap string (@Task.value Scope Callable).
Implicit Types l input : list (DataSource.t Scope).
Implicit Types output : option (list (DataSource.t Scope)).
Implicit Types a b d : DataSource.t Scope.

(** The identifier that [__init__] synthesizes. *)
Lemma synthesized_id (name uuid4 : string) :
  String.concat Task.__ID_SEPARATOR [Task.__ID_PREFIX; name; uuid4]
  = "TASK_" +:+ name +:+ "_" +:+ uuid4.
Proof. reflexivity. Qed.

Lemma init_id self config_name input (function : Callable) output id parent_id uuid4 :
  Task.id (Task.__init__ protect_name self config_name input function output
             id parent_id uuid4)
  = Py.Ok (Py.or_str id ("TASK_" +:+ protect_name config_name +:+ "_" +:+ uuid4)).
Proof. rewrite <- synthesized_id. read_init. Qed.

Lemma init_config_name self config_name input (function : Callable) output id
    parent_id uuid4 :
  Task.config_name (Task.__init__ protect_name self config_name input function
                      output id parent_id uuid4)
  = Py.Ok (protect_name config_name).
Proof. read_init. Qed.

Lemma init_input self config_name input (function : Callable) output id parent_id
    uuid4 :
  Task.input (Task.__init__ protect_name self config_name input function output
                id parent_id uuid4)
  = Py.Ok (Task.dict_by_config_name input).
Proof. read_init. Qed.

Lemma init_output self config_name input (function : Callable) output id parent_id
    uuid4 :
  Task.output (Task.__init__ protect_name self config_name input function output
                 id parent_id uuid4)
  = Py.Ok (Task.dict_by_config_name (default [] output)).
Proof. read_init. Qed.

(** The dict comprehension, one element at a time. *)
Lemma dict_snoc l d :
  Task.dict_by_config_name (l ++ [d])
  = <[DataSource.config_name d := d]> (Task.dict_by_config_name l).
Proof. unfold Task.dict_by_config_name. by rewrite fold_left_app. Qed.

(** Every entry of the mapping is an element of the sequence, filed under
    its own name. *)
Lemma dict_lookup_Some l k d :
  Task.dict_by_config_name l !! k = Some d ->
  d ∈ l /\ DataSource.config_name d = k.
Proof.
  revert k d. induction l as [|x l IH] using rev_ind; intros k d.
  - unfold Task.dict_by_config_name. simpl. by rewrite lookup_empty.
  - rewrite dict_snoc, lookup_insert. case_decide as Hk.
    + intros [= <-]. split; [apply elem_of_app; right; constructor | done].
    + intros H. destruct (IH _ _ H) as [Hin Hname].
      split; [apply elem_of_app; by left | done].
Qed.

(** Every name of the sequence is a key of the mapping. *)
Lemma dict_lookup_is_Some l d :
  d ∈ l -> is_Some (Task.dict_by_config_name l !! DataSource.config_name d).
Proof.
  induction l as [|x l IH] using rev_ind; [set_solver|].
  rewrite dict_snoc, lookup_insert. case_decide as Hk; [eauto|].
  intros [Hd | Hd]%elem_of_app; [auto|].
  apply list_elem_of_singleton in Hd. congruence.
Qed.

(** The key of a name holds the last element of that name. *)
Lemma dict_lookup_last l b post :
  (forall d, d ∈ post -> DataSource.config_name d <> DataSource.config_name b) ->
  Task.dict_by_config_name (l ++ b :: post) !! DataSource.config_name b = Some b.
Proof.
  induction post as [|x post IH] using rev_ind; intros Hpost.
  - by rewrite dict_snoc, lookup_insert_eq.
  - replace (l ++ b :: post ++ [x]) with ((l ++ b :: post) ++ [x])
      by (by rewrite <- app_assoc).
    rewrite dict_snoc, lookup_insert_ne.
    + apply IH. intros d Hd. apply Hpost. set_solver.
    + apply Hpost. set_solver.
Qed.

Lemma dict_pair a b :
  DataSource.config_name a = DataSource.config_name b ->
  Task.dict_by_config_name [a; b] = {[DataSource.config_name a := b]}.
Proof.
  intros Hab. unfold Task.dict_by_config_name. simpl.
  rewrite Hab, insert_insert_eq. by rewrite insert_empty.
Qed.

Lemma append_inv_head (s x y : string) : s +:+ x = s +:+ y -> x = y.
Proof. induction s as [|c s IH]; simpl; [done|]. intros [= H]. auto. Qed.

(** What the synthesized identifiers of two constructions under one
    sanitized name have in common is everything but the token. *)
Lemma synthesized_id_inj (name u1 u2 : string) :
  "TASK_" +:+ name +:+ "_" +:+ u1 = "TASK_" +:+ name +:+ "_" +:+ u2 <-> u1 = u2.
Proof.
  split; [|by intros ->].
  intros H%append_inv_head%append_inv_head%append_inv_head. exact H.
Qed.

(** A truthy explicit identifier is kept as it is. *)
Lemma explicit_id_kept self config_name input (function : Callable) output
    (X : string) parent_id uuid4 :
  X <> "" ->
  Task.id (Task.__init__ protect_name self config_name input function output
             (Some X) parent_id uuid4) = Py.Ok X.
Proof. intros HX. rewrite init_id. by destruct X. Qed.

(** C2 (the identifier passed to the constructor is kept exactly, the empty
    string included) does not hold at the empty string: [id or ...] takes
    the empty string for an absent identifier, and the task gets the
    synthesized identifier TASK_<sanitized name>_<token>, which is not the
    empty string. *)
Theorem C2_empty_id_is_replaced self config_name input (function : Callable)
    output parent_id uuid4 :
  Task.id (Task.__init__ protect_name self config_name input function output
             (Some "") parent_id uuid4)
  = Py.Ok ("TASK_" +:+ protect_name config_name +:+ "_" +:+ uuid4)
  /\ Task.id (Task.__init__ protect_name self config_name input function output
                (Some "") parent_id uuid4)
     <> Py.Ok "".
Proof. rewrite init_id. simpl. split; [reflexivity | discriminate]. Qed.

(** C7: when two input data sources a and b, in that order, have the same
    config_name, the construction succeeds and the inputs mapping holds b
    under that name, whatever stands before a and between a and b, as long
    as no later input takes the name again; for the inputs [a; b] the
    mapping is the single entry name |-> b.  The same holds for the outputs
    mapping, whatever the inputs are. *)
Theorem C7_last_write_wins self config_name (function : Callable) id parent_id
    uuid4 a b :
  DataSource.config_name a = DataSource.config_name b ->
  (forall pre mid post output,
      (forall d, d ∈ post -> DataSource.config_name d <> DataSource.config_name b) ->
      exists inp,
        Task.input (Task.__init__ protect_name self config_name
                      (pre ++ a :: mid ++ b :: post) function output id
                      parent_id uuid4) = Py.Ok inp
        /\ inp !! DataSource.config_name a = Some b)
  /\ (forall output,
        Task.input (Task.__init__ protect_name self config_name [a; b] function
                      output id parent_id uuid4)
        = Py.Ok {[DataSource.config_name a := b]})
  /\ (forall pre mid post input,
        (forall d, d ∈ post -> DataSource.config_name d <> DataSource.config_name b) ->
        exists out,
          Task.output (Task.__init__ protect_name self config_name input function
                         (Some (pre ++ a :: mid ++ b :: post)) id parent_id uuid4)
          = Py.Ok out
          /\ out !! DataSource.config_name a = Some b)
  /\ (forall input,
        Task.output (Task.__init__ protect_name self config_name input function
                       (Some [a; b]) id parent_id uuid4)
        = Py.Ok {[DataSource.config_name a := b]}).
Proof.
  intros Hab. repeat split.
  - intros pre mid post output Hpost. eexists. split; [apply init_input|].
    rewrite Hab.
    replace (pre ++ a :: mid ++ b :: post) with ((pre ++ a :: mid) ++ b :: post)
      by (by rewrite <- app_assoc).
    by apply dict_lookup_last.
  - intros output. rewrite init_input. by rewrite dict_pair.
  - intros pre mid post input Hpost. eexists. split; [apply init_output|].
    rewrite Hab. simpl.
    replace (pre ++ a :: mid ++ b :: post) with ((pre ++ a :: mid) ++ b :: post)
      by (by rewrite <- app_assoc).
    by apply dict_lookup_last.
  - intros input. rewrite init_output. simpl. by rewrite dict_pair.
Qed.


End Construction.

Lemma C7_witness :
  DataSource.config_name (Examples.ds 1 "sales" Data.SCENARIO)
  = DataSource.config_name (Examples.ds 2 "sales" Data.CYCLE)
  /\ Task.input
       (Task.__init__ Examples.sanitize
          (Task.__new__ : gmap string (@Task.value Data.Scope nat)) "plan"
          [Examples.ds 1 "sales" Data.SCENARIO; Examples.ds 2 "sales" Data.CYCLE]
          7%nat None None None "")
     = Py.Ok {["sales" := Examples.ds 2 "sales" Data.CYCLE]}.
Proof.
  split; [reflexivity|].
  exact (proj1 (proj2 (C7_last_write_wins Examples.sanitize Task.__new__ "plan"
                         7%nat None None ""
                         (Examples.ds 1 "sales" Data.SCENARIO)
                         (Examples.ds 2 "sales" Data.CYCLE) eq_refl)) None).
Defined.



(* ===================================================================== *)
(** ** The pickling hooks                                                  *)
(* ===================================================================== *)

Section Pickling.

Context {Scope Callable : Type}.
Variable protect_name : string -> string.

Implicit Types self state : gmap string (@Task.value Scope Callable).

Lemma setstate_lookup self state k :
  Task.__setstate__ self state !! k
  = match state !! k with
    | Some v => Some v
    | None => self !! k
    end.
Proof.
  unfold Task.__setstate__. rewrite lookup_union.
  by destruct (state !! k), (self !! k).
Qed.

Lemma setstate_replaces_iff self state :
  Task.__setstate__ self state = state <-> dom self ⊆ dom state.
Proof.
  split.
  - intros Heq k [v Hv]%elem_of_dom. apply elem_of_dom.
    rewrite <- Heq, setstate_lookup. destruct (state !! k); [eauto|].
    rewrite Hv. eauto.
  - intros Hdom. apply map_eq. intros k. rewrite setstate_lookup.
    destruct (state !! k) eqn:Hk; [done|].
    apply not_elem_of_dom. apply not_elem_of_dom in Hk. set_solver.
Qed.

(** The attributes of an instance that [__init__] has filled. *)
Lemma init_dom self config_name input (function : Callable) output id parent_id
    uuid4 :
  dom (Task.__init__ protect_name self config_name input function output id
         parent_id uuid4)
  = {["config_name"; "id"; "parent_id"; "_Task__input"; "_Task__output";
      "function"]} ∪ dom self.
Proof.
  unfold Task.__init__. rewrite !dom_insert_L.
  apply set_eq. intros k. rewrite !elem_of_union, !elem_of_singleton. tauto.
Qed.

Lemma init_function self config_name input (function : Callable) output id
    parent_id uuid4 :
  Task.function (Task.__init__ protect_name self config_name input function output
                   id parent_id uuid4)
  = Py.Ok function.
Proof. read_init. Qed.

(** C5, as the code has it: restoring a snapshot sets every field that the
    snapshot names to the snapshot's value and leaves every other field of
    the prior state as it was.  The field set after the restore is the
    snapshot exactly when the snapshot names every field of the prior
    state; this is so when the prior state is blank, and when the prior
    state and the snapshot are both those of constructed tasks. *)
Theorem C5_restore_updates self state :
  (forall k v, state !! k = Some v -> Task.__setstate__ self state !! k = Some v)
  /\ (forall k, state !! k = None -> Task.__setstate__ self state !! k = self !! k)
  /\ (Task.__setstate__ self state = state <-> dom self ⊆ dom state)
  /\ Task.__setstate__ Task.__new__ state = state
  /\ (forall n1 (i1 : list (DataSource.t Scope)) (f1 : Callable) o1 id1 p1 u1
             n2 (i2 : list (DataSource.t Scope)) (f2 : Callable) o2 id2 p2 u2,
        Task.__setstate__
          (Task.__init__ protect_name Task.__new__ n1 i1 f1 o1 id1 p1 u1)
          (Task.__getstate__
             (Task.__init__ protect_name Task.__new__ n2 i2 f2 o2 id2 p2 u2))
        = Task.__init__ protect_name Task.__new__ n2 i2 f2 o2 id2 p2 u2).
Proof.
  split; [|split; [|split; [|split]]].
  - intros k v Hk. by rewrite setstate_lookup, Hk.
  - intros k Hk. by rewrite setstate_lookup, Hk.
  - apply setstate_replaces_iff.
  - apply setstate_replaces_iff. unfold Task.__new__. set_solver.
  - intros. unfold Task.__getstate__. apply setstate_replaces_iff.
    rewrite !init_dom. set_solver.
Qed.

(** C6: the snapshot of a freshly constructed task, restored into a blank
    instance, gives an instance with the fields of the original: the same
    id, config name, inputs, outputs and function. *)
Theorem C6_snapshot_restore_round_trip config_name input (function : Callable)
    output id parent_id uuid4 :
  let original : gmap string (@Task.value Scope Callable) :=
    Task.__init__ protect_name Task.__new__ config_name input function output id
      parent_id uuid4 in
  let second := Task.__setstate__ Task.__new__ (Task.__getstate__ original) in
  second = original
  /\ Task.id second = Task.id original
  /\ Task.id second
     = Py.Ok (Py.or_str id ("TASK_" +:+ protect_name config_name +:+ "_" +:+ uuid4))
  /\ Task.config_name second = Task.config_name original
  /\ Task.config_name second = Py.Ok (protect_name config_name)
  /\ Task.input second = Task.input original
  /\ Task.input second = Py.Ok (Task.dict_by_config_name input)
  /\ Task.output second = Task.output original
  /\ Task.output second = Py.Ok (Task.dict_by_config_name (default [] output))
  /\ Task.function second = Task.function original
  /\ Task.function second = Py.Ok function.
Proof.
  intros original second.
  assert (Heq : second = original).
  { subst second. unfold Task.__getstate__. apply setstate_replaces_iff.
    unfold Task.__new__. set_solver. }
  rewrite Heq. subst original.
  rewrite init_id, init_config_name, init_input, init_output, init_function.
  repeat split.
Qed.

End Pickling.

Lemma C5_witness :
  Task.__getstate__ Examples.plan !! "parent_id" = Some Task.VNone
  /\ Task.__setstate__ Examples.shadowed (Task.__getstate__ Examples.plan)
       !! "parent_id" = Some Task.VNone.
Proof.
  split; [reflexivity|].
  apply (proj1 (C5_restore_updates Examples.sanitize Examples.shadowed
                  (Task.__getstate__ Examples.plan))).
  reflexivity.
Defined.

(** The snapshot of a blank instance, restored into a constructed task,
    replaces nothing: the task keeps every field it had. *)
Lemma C5_counterexample :
  let snapshot : gmap string (@Task.value Data.Scope nat) :=
    Task.__getstate__ Task.__new__ in
  Task.__setstate__ Examples.plan snapshot <> snapshot
  /\ Task.config_name (Task.__setstate__ Examples.plan snapshot) = Py.Ok "plan"
  /\ Task.config_name snapshot = Py.Raise Py.RecursionError.
Proof.
  simpl. split; [|split; reflexivity].
  intros H. apply (f_equal (fun m => m !! "config_name")) in H.
  vm_compute in H. discriminate H.
Qed.

(* ===================================================================== *)
(** ** Attribute-style access                                              *)
(* ===================================================================== *)

Section Access.

Context {Scope Callable : Type}.
Variable protect_name : string -> string.

Implicit Types self : gmap string (@Task.value Scope Callable).
Implicit Types inp out : gmap string (DataSource.t Scope).
Implicit Types input : list (DataSource.t Scope).
Implicit Types output : option (list (DataSource.t Scope)).
Implicit Types d : DataSource.t Scope.

(** [__getattr__] on an instance whose attributes are bound. *)
Lemma getattr_eq self inp out i n log :
  Task.input self = Py.Ok inp ->
  Task.output self = Py.Ok out ->
  Task.id self = Py.Ok i ->
  Task.__getattr__ protect_name self n log
  = match inp !! protect_name n with
    | Some d => (Py.Ok d, log)
    | None =>
      match out !! protect_name n with
      | Some d => (Py.Ok d, log)
      | None => (Py.Raise Py.AttributeError,
                 log ++ [n +:+ " is not a data source of task " +:+ i])
      end
    end.
Proof.
  intros Hinp Hout Hid.
  unfold Task.__getattr__, Py.bind, Py.lift, Py.contains, Py.getitem,
    Py.logging_error, Py.raise.
  rewrite Hinp. destruct (inp !! protect_name n) as [d|] eqn:Hi.
  { rewrite bool_decide_true by eauto. reflexivity. }
  rewrite bool_decide_false by (by intros [? ?]).
  rewrite Hout. destruct (out !! protect_name n) as [d|] eqn:Ho.
  { rewrite bool_decide_true by eauto. reflexivity. }
  rewrite bool_decide_false by (by intros [? ?]).
  rewrite Hid. reflexivity.
Qed.

Lemma getattr_constructed self0 config_name input (function : Callable) output
    id parent_id uuid4 n log :
  Task.__getattr__ protect_name
    (Task.__init__ protect_name self0 config_name input function output id
       parent_id uuid4) n log
  = match Task.dict_by_config_name input !! protect_name n with
    | Some d => (Py.Ok d, log)
    | None =>
      match Task.dict_by_config_name (default [] output) !! protect_name n with
      | Some d => (Py.Ok d, log)
      | None =>
        (Py.Raise Py.AttributeError,
         log ++ [n +:+ " is not a data source of task "
                   +:+ Py.or_str id ("TASK_" +:+ protect_name config_name
                                       +:+ "_" +:+ uuid4)])
      end
    end.
Proof. apply getattr_eq; [apply init_input | apply init_output | apply init_id]. Qed.

(** The names under which a constructed task finds a data source. *)
Lemma dict_lookup_None input k :
  Task.dict_by_config_name input !! k = None <->
  forall d, d ∈ input -> DataSource.config_name d <> k.
Proof.
  split.
  - intros Hk d Hd <-. apply dict_lookup_is_Some in Hd as [x Hx]. congruence.
  - intros Hno. destruct (Task.dict_by_config_name input !! k) as [d|] eqn:Hk;
      [|done].
    apply dict_lookup_Some in Hk as [Hd Hname]. by destruct (Hno d Hd).
Qed.

(** C4: for a name that Python hands to [__getattr__], the name is
    sanitized and looked up in the inputs and then in the outputs; the data
    source bound there is returned and nothing is logged; when the
    sanitized name is in neither mapping, AttributeError is raised and
    exactly one record is logged, which gives the name asked for and the
    id of the task. *)
Theorem C4_attribute_access self inp out i n log :
  Task.input self = Py.Ok inp ->
  Task.output self = Py.Ok out ->
  Task.id self = Py.Ok i ->
  (forall d, inp !! protect_name n = Some d ->
             Task.__getattr__ protect_name self n log = (Py.Ok d, log))
  /\ (forall d, inp !! protect_name n = None ->
                out !! protect_name n = Some d ->
                Task.__getattr__ protect_name self n log = (Py.Ok d, log))
  /\ (inp !! protect_name n = None ->
      out !! protect_name n = None ->
      exists msg,
        Task.__getattr__ protect_name self n log
        = (Py.Raise Py.AttributeError, log ++ [msg])
        /\ msg = n +:+ " is not a data source of task " +:+ i).
Proof.
  intros Hinp Hout Hid. rewrite (getattr_eq self inp out i n log Hinp Hout Hid).
  repeat split.
  - by intros d ->.
  - by intros d -> ->.
  - intros -> ->. eauto.
Qed.

Section Idempotent.

(** The sanitizer is idempotent, as the spec has it. *)
Hypothesis protect_name_idem :
  forall s, protect_name (protect_name s) = protect_name s.

(** C10, as the code has it: on a constructed task, for a name n that
    Python hands to [__getattr__] (a name that is neither an attribute of
    the instance nor one of the class, as in C4), attribute access gives a
    data source exactly when the sanitized n is the config name, as it is,
    of one of the inputs or outputs, and raises AttributeError exactly when
    it is the config name of none; the data source returned is filed under
    the sanitized n, so that a data source whose config name is not a fixed
    point of the sanitizer is returned under no name at all. *)
Theorem C10_access_by_raw_config_name self0 config_name input (function : Callable)
    output id parent_id uuid4 :
  let t := Task.__init__ protect_name self0 config_name input function output id
             parent_id uuid4 in
  (forall n log,
      (exists d, (Task.__getattr__ protect_name t n log).1 = Py.Ok d)
      <-> (exists d, d ∈ input ++ default [] output
                     /\ DataSource.config_name d = protect_name n))
  /\ (forall n log,
        (Task.__getattr__ protect_name t n log).1 = Py.Raise Py.AttributeError
        <-> (forall d, d ∈ input ++ default [] output ->
                       DataSource.config_name d <> protect_name n))
  /\ (forall n log d,
        (Task.__getattr__ protect_name t n log).1 = Py.Ok d ->
        d ∈ input ++ default [] output
        /\ DataSource.config_name d = protect_name n)
  /\ (forall d,
        protect_name (DataSource.config_name d) <> DataSource.config_name d ->
        forall n log, (Task.__getattr__ protect_name t n log).1 <> Py.Ok d).
Proof.
  intros t.
  assert (Hret : forall n log d,
             (Task.__getattr__ protect_name t n log).1 = Py.Ok d ->
             d ∈ input ++ default [] output
             /\ DataSource.config_name d = protect_name n).
  { intros n log d. subst t. rewrite getattr_constructed.
    destruct (Task.dict_by_config_name input !! protect_name n) as [x|] eqn:Hi.
    - simpl. intros [= ->]. apply dict_lookup_Some in Hi as [Hd Hname].
      split; [apply elem_of_app; by left | done].
    - destruct (Task.dict_by_config_name (default [] output) !! protect_name n)
        as [x|] eqn:Ho; simpl; [|discriminate].
      intros [= ->]. apply dict_lookup_Some in Ho as [Hd Hname].
      split; [apply elem_of_app; by right | done]. }
  assert (Hraise : forall n log,
             (Task.__getattr__ protect_name t n log).1 = Py.Raise Py.AttributeError
             <-> (forall d, d ∈ input ++ default [] output ->
                            DataSource.config_name d <> protect_name n)).
  { intros n log. subst t. rewrite getattr_constructed.
    destruct (Task.dict_by_config_name input !! protect_name n) as [x|] eqn:Hi.
    - simpl. split; [discriminate|]. intros Hno.
      apply dict_lookup_Some in Hi as [Hd Hname].
      destruct (Hno x); [apply elem_of_app; by left | done].
    - destruct (Task.dict_by_config_name (default [] output) !! protect_name n)
        as [x|] eqn:Ho; simpl.
      + split; [discriminate|]. intros Hno.
        apply dict_lookup_Some in Ho as [Hd Hname].
        destruct (Hno x); [apply elem_of_app; by right | done].
      + split; [|done]. intros _ d [Hd|Hd]%elem_of_app.
        * by apply (proj1 (dict_lookup_None input _) Hi).
        * by apply (proj1 (dict_lookup_None (default [] output) _) Ho). }
  split; [|split; [exact Hraise | split; [exact Hret|]]].
  - intros n log. split.
    + intros [d Hd]. exists d. by apply (Hret n log).
    + intros (d & Hd & Hname).
      destruct ((Task.__getattr__ protect_name t n log).1) as [x|e] eqn:Hres;
        [eauto|].
      assert (He : e = Py.AttributeError).
      { subst t. rewrite getattr_constructed in Hres.
        destruct (Task.dict_by_config_name input !! protect_name n);
          [discriminate|].
        destruct (Task.dict_by_config_name (default [] output) !! protect_name n);
          [discriminate|].
        simpl in Hres. congruence. }
      subst e. by destruct (proj1 (Hraise n log) Hres d Hd).
  - intros d Hfix n log Hres. apply Hret in Hres as [_ Hname].
    apply Hfix. by rewrite Hname, protect_name_idem.
Qed.

End Idempotent.
End Access.

Lemma C4_witness :
  Task.input Examples.plan
  = Py.Ok (Task.dict_by_config_name [Examples.sales; Examples.costs])
  /\ Task.output Examples.plan = Py.Ok (Task.dict_by_config_name [Examples.report])
  /\ Task.id Examples.plan
     = Py.Ok "TASK_plan_0b6e7a51-3a0c-4c43-9d8e-5d1a2f1c9e77"
  /\ Task.__getattr__ Examples.sanitize Examples.plan "report" []
     = (Py.Ok Examples.report, [])
  /\ exists msg,
       Task.__getattr__ Examples.sanitize Examples.plan "stock" []
       = (Py.Raise Py.AttributeError, [] ++ [msg])
       /\ msg = "stock is not a data source of task TASK_plan_0b6e7a51-3a0c-4c43-9d8e-5d1a2f1c9e77".
Proof.
  split; [reflexivity|]. split; [reflexivity|]. split; [reflexivity|].
  split.
  - apply (C4_attribute_access Examples.sanitize Examples.plan
             (Task.dict_by_config_name [Examples.sales; Examples.costs])
             (Task.dict_by_config_name [Examples.report])
             "TASK_plan_0b6e7a51-3a0c-4c43-9d8e-5d1a2f1c9e77" "report" []
             eq_refl eq_refl eq_refl); reflexivity.
  - apply (C4_attribute_access Examples.sanitize Examples.plan
             (Task.dict_by_config_name [Examples.sales; Examples.costs])
             (Task.dict_by_config_name [Examples.report])
             "TASK_plan_0b6e7a51-3a0c-4c43-9d8e-5d1a2f1c9e77" "stock" []
             eq_refl eq_refl eq_refl); reflexivity.
Defined.

Lemma C10_witness :
  (forall s, Examples.sanitize (Examples.sanitize s) = Examples.sanitize s)
  /\ Examples.sanitize (DataSource.config_name Examples.raw_named)
     <> DataSource.config_name Examples.raw_named
  /\ forall n log,
       (Task.__getattr__ Examples.sanitize Examples.shadowed n log).1
       <> Py.Ok Examples.raw_named.
Proof.
  split; [exact sanitize_idempotent|]. split; [discriminate|].
  apply (C10_access_by_raw_config_name Examples.sanitize sanitize_idempotent
           Task.__new__ "x" [Examples.raw_named; Examples.clean_named] 7%nat None
           (Some "T1") None "").
  discriminate.
Defined.

(** A data source whose config name is not a fixed point of the sanitizer,
    bound as an input next to one that carries the sanitized name: access
    under the config name of the first does not raise, it returns the
    second. *)
Lemma C10_counterexample :
  Examples.sanitize (DataSource.config_name Examples.raw_named)
  <> DataSource.config_name Examples.raw_named
  /\ (exists inp, Task.input Examples.shadowed = Py.Ok inp
                  /\ inp !! "a b" = Some Examples.raw_named)
  /\ Task.__getattr__ Examples.sanitize Examples.shadowed
       (DataSource.config_name Examples.raw_named) []
     = (Py.Ok Examples.clean_named, [])
  /\ (Task.__getattr__ Examples.sanitize Examples.shadowed
        (DataSource.config_name Examples.raw_named) []).1
     <> Py.Raise Py.AttributeError.
Proof.
  split; [discriminate|]. split; [eexists; split; reflexivity|].
  split; [reflexivity | discriminate].
Qed.

(* ===================================================================== *)
(** ** Scope derivation                                                    *)
(* ===================================================================== *)

Section ScopeDerivation.

Context {Scope Callable : Type}.
Variable scope_lt : Scope -> Scope -> bool.
Variable GLOBAL : Scope.

Implicit Types self : gmap string (@Task.value Scope Callable).
Implicit Types inp out : gmap string (DataSource.t Scope).

(** [<] on scopes is a total order. *)
Hypothesis scope_lt_trans :
  forall a b c, scope_lt a b = true -> scope_lt b c = true -> scope_lt a c = true.
Hypothesis scope_lt_total :
  forall a b, a = b \/ scope_lt a b = true \/ scope_lt b a = true.

Lemma scope_le_trans (a b c : Scope) :
  a = b \/ scope_lt a b = true ->
  b = c \/ scope_lt b c = true ->
  a = c \/ scope_lt a c = true.
Proof.
  intros [-> | Hab] [-> | Hbc]; eauto.
Qed.

(** The loop of [min]: the result is one of the elements and none of them
    is below it. *)
Lemma min_loop_least (rest : list Scope) (x : Scope) :
  let m := fold_left (fun m y => if scope_lt y m then y else m) rest x in
  m ∈ x :: rest /\ forall y, y ∈ x :: rest -> m = y \/ scope_lt m y = true.
Proof.
  revert x. induction rest as [|y rest IH]; intros x; simpl.
  - split; [constructor|]. intros y Hy. apply list_elem_of_singleton in Hy. auto.
  - destruct (IH (if scope_lt y x then y else x)) as [Hin Hleast].
    set (x' := if scope_lt y x then y else x) in *.
    assert (Hx' : (x' = x \/ scope_lt x' x = true)
                  /\ (x' = y \/ scope_lt x' y = true) /\ x' ∈ [x; y]).
    { subst x'. destruct (scope_lt y x) eqn:Hyx.
      - repeat split; auto. apply elem_of_cons. right. constructor.
      - repeat split; auto; [|constructor].
        destruct (scope_lt_total x y) as [-> | [H | H]]; auto. congruence. }
    destruct Hx' as (Hx & Hy & Hmem).
    split.
    + apply elem_of_cons in Hin as [-> | Hin].
      * apply elem_of_cons in Hmem as [-> | Hmem]; [constructor|].
        apply list_elem_of_singleton in Hmem as ->.
        apply elem_of_cons. right. constructor.
      * apply elem_of_cons. right. apply elem_of_cons. by right.
    + intros z Hz. apply elem_of_cons in Hz as [-> | Hz].
      * eapply scope_le_trans; [apply Hleast; constructor | exact Hx].
      * apply elem_of_cons in Hz as [-> | Hz].
        -- eapply scope_le_trans; [apply Hleast; constructor | exact Hy].
        -- apply Hleast. apply elem_of_cons. by right.
Qed.

(** [min] does not depend on the order of the elements, when [<] is
    irreflexive as well. *)
Lemma min_permutation (l1 l2 : list Scope) :
  (forall a, scope_lt a a = false) ->
  l1 ≡ₚ l2 -> Py.min scope_lt l1 = Py.min scope_lt l2.
Proof.
  intros Hirr Hperm. destruct l1 as [|x1 r1], l2 as [|x2 r2]; simpl.
  - reflexivity.
  - by apply Permutation_nil_cons in Hperm.
  - symmetry in Hperm. by apply Permutation_nil_cons in Hperm.
  - destruct (min_loop_least r1 x1) as [Hin1 Hleast1].
    destruct (min_loop_least r2 x2) as [Hin2 Hleast2].
    simpl in *. f_equal.
    rewrite Hperm in Hin1. rewrite <- Hperm in Hin2.
    destruct (Hleast1 _ Hin2) as [H12 | H12]; [done|].
    destruct (Hleast2 _ Hin1) as [H21 | H21]; [done|].
    pose proof (scope_lt_trans _ _ _ H12 H21) as Hcycle.
    by rewrite Hirr in Hcycle.
Qed.

Lemma elem_of_values inp (d : DataSource.t Scope) :
  d ∈ Py.values inp <-> exists k, inp !! k = Some d.
Proof.
  unfold Py.values. rewrite list_elem_of_fmap. split.
  - intros ([k x] & -> & Hkx). exists k. by apply elem_of_map_to_list.
  - intros [k Hk]. exists (k, d). split; [done|]. by apply elem_of_map_to_list.
Qed.

Lemma values_nil inp : Py.values inp = [] <-> inp = ∅.
Proof.
  unfold Py.values. split.
  - intros H%fmap_nil_inv. by apply map_to_list_empty_iff.
  - intros ->. by rewrite map_to_list_empty.
Qed.

(** C3: the scope of a task without inputs and outputs is GLOBAL; otherwise
    it is the scope of one of the data sources bound as inputs or outputs,
    and no bound data source has a scope below it. *)
Theorem C3_scope_is_minimum self inp out :
  Task.input self = Py.Ok inp ->
  Task.output self = Py.Ok out ->
  (inp = ∅ /\ out = ∅ -> Task.scope scope_lt GLOBAL self = Py.Ok GLOBAL)
  /\ (~ (inp = ∅ /\ out = ∅) ->
      exists s,
        Task.scope scope_lt GLOBAL self = Py.Ok s
        /\ (exists d, ((exists k, inp !! k = Some d) \/ (exists k, out !! k = Some d))
                      /\ DataSource.scope d = s)
        /\ (forall d, (exists k, inp !! k = Some d) \/ (exists k, out !! k = Some d) ->
                      s = DataSource.scope d
                      \/ scope_lt s (DataSource.scope d) = true)).
Proof.
  intros Hinp Hout. unfold Task.scope. rewrite Hinp, Hout. split.
  - intros [-> ->]. by rewrite (proj2 (values_nil ∅)).
  - intros Hne.
    destruct (Py.values inp ++ Py.values out) as [|x rest] eqn:Hds.
    { apply app_eq_nil in Hds as [Hi Ho]. destruct Hne.
      split; by apply values_nil. }
    simpl.
    destruct (min_loop_least (DataSource.scope <$> rest) (DataSource.scope x))
      as [Hin Hleast].
    eexists. split; [reflexivity|].
    assert (Hbound : forall d, d ∈ x :: rest <->
                (exists k, inp !! k = Some d) \/ (exists k, out !! k = Some d)).
    { intros d. rewrite <- Hds, elem_of_app, !elem_of_values. tauto. }
    split.
    + change (DataSource.scope x :: (DataSource.scope <$> rest))
        with (DataSource.scope <$> (x :: rest)) in Hin.
      apply list_elem_of_fmap in Hin as (d & Hd & Hmem).
      exists d. split; [by apply Hbound | done].
    + intros d Hd%Hbound. apply Hleast.
      change (DataSource.scope x :: (DataSource.scope <$> rest))
        with (DataSource.scope <$> (x :: rest)).
      by apply list_elem_of_fmap_2.
Qed.

End ScopeDerivation.

Lemma Scope_lt_trans (a b c : Data.Scope) :
  Data.Scope_lt a b = true -> Data.Scope_lt b c = true -> Data.Scope_lt a c = true.
Proof. destruct a, b, c; simpl; intros H1 H2; solve [reflexivity | discriminate]. Qed.

Lemma Scope_lt_total (a b : Data.Scope) :
  a = b \/ Data.Scope_lt a b = true \/ Data.Scope_lt b a = true.
Proof. destruct a, b; simpl; auto. Qed.

(** Inputs of scopes SCENARIO and PIPELINE, an output of scope CYCLE. *)
Example scope_of_plan :
  Task.scope Data.Scope_lt Data.GLOBAL Examples.plan = Py.Ok Data.CYCLE.
Proof. reflexivity. Qed.

Example scope_of_unbound :
  Task.scope Data.Scope_lt Data.GLOBAL
    (Task.__init__ Examples.sanitize
       (Task.__new__ : gmap string (@Task.value Data.Scope nat)) "idle" [] 7%nat
       None None None "")
  = Py.Ok Data.GLOBAL.
Proof. reflexivity. Qed.

Lemma C3_witness :
  Task.input Examples.plan
  = Py.Ok (Task.dict_by_config_name [Examples.sales; Examples.costs])
  /\ Task.output Examples.plan = Py.Ok (Task.dict_by_config_name [Examples.report])
  /\ exists s,
       Task.scope Data.Scope_lt Data.GLOBAL Examples.plan = Py.Ok s
       /\ (s = DataSource.scope Examples.sales
           \/ Data.Scope_lt s (DataSource.scope Examples.sales) = true)
       /\ (s = DataSource.scope Examples.report
           \/ Data.Scope_lt s (DataSource.scope Examples.report) = true).
Proof.
  split; [reflexivity|]. split; [reflexivity|].
  destruct (C3_scope_is_minimum Data.Scope_lt Data.GLOBAL Scope_lt_trans
              Scope_lt_total Examples.plan
              (Task.dict_by_config_name [Examples.sales; Examples.costs])
              (Task.dict_by_config_name [Examples.report]) eq_refl eq_refl)
    as [_ Hleast].
  destruct Hleast as (s & Hs & _ & Hmin).
  - intros [H _]. apply (f_equal (fun m => m !! "sales")) in H. discriminate H.
  - exists s. split; [exact Hs|]. split; apply Hmin.
    + left. exists "sales". reflexivity.
    + right. exists "report". reflexivity.
Defined.

(* ===================================================================== *)
(** ** Identity of tasks                                                   *)
(* ===================================================================== *)

Section Identity.

Context {Scope Callable : Type}.
Variable hash : string -> Z.

Implicit Types heap : gmap nat (gmap string (@Task.value Scope Callable)).

(** Two instances with the same id have the same hash. *)
Lemma equal_ids_equal_hashes heap a b ta tb i :
  heap !! a = Some ta -> heap !! b = Some tb ->
  Task.id ta = Py.Ok i -> Task.id tb = Py.Ok i ->
  Task.hash_at hash heap a = Task.hash_at hash heap b.
Proof.
  intros Ha Hb Hia Hib. unfold Task.hash_at, Task.__hash__.
  by rewrite Ha, Hb, Hia, Hib.
Qed.

(** A set or a dict takes two tasks for one key only when they are one and
    the same instance. *)
Lemma same_key_is_identity heap a b ha hb :
  Task.hash_at hash heap a = Py.Ok ha ->
  Task.hash_at hash heap b = Py.Ok hb ->
  Task.same_key hash heap a b = Py.Ok (bool_decide (a = b)).
Proof.
  intros Ha Hb. unfold Task.same_key, Task.object__eq__. rewrite Ha, Hb.
  f_equal. destruct (bool_decide (a = b)); [done|].
  by rewrite andb_false_r.
Qed.

End Identity.

(** C1 (two tasks compare equal exactly when their ids are equal) does not
    hold for two instances constructed with the same id: they have the same
    hash, but the class defines no [__eq__], the comparison inherited from
    [object] tells them apart, and a set or a dict keeps them as two keys. *)
Theorem C1_equal_ids_compare_unequal (hash : string -> Z) :
  (exists ta tb,
      Examples.twins !! 0%nat = Some ta /\ Examples.twins !! 1%nat = Some tb
      /\ Task.id ta = Py.Ok "T1" /\ Task.id tb = Py.Ok "T1"
      /\ Task.config_name ta = Py.Ok "first"
      /\ Task.config_name tb = Py.Ok "second")
  /\ Task.hash_at hash Examples.twins 0 = Py.Ok (hash "T1")
  /\ Task.hash_at hash Examples.twins 1 = Py.Ok (hash "T1")
  /\ Task.object__eq__ 0 1 = false
  /\ Task.same_key hash Examples.twins 0 1 = Py.Ok false.
Proof.
  split; [do 2 eexists; repeat split; reflexivity|].
  split; [reflexivity|]. split; [reflexivity|]. split; [reflexivity|].
  by rewrite (same_key_is_identity hash Examples.twins 0 1 (hash "T1") (hash "T1")).
Qed.

(* ===================================================================== *)
(** ** Further properties of the constructor                               *)
(* ===================================================================== *)

Lemma string_length_append (x y : string) :
  String.length (x +:+ y) = String.length x + String.length y.
Proof. induction x as [|c x IH]; simpl; [done|]. by rewrite IH. Qed.

(** Two concatenations with tails of one length agree part by part. *)
Lemma append_eq_same_tail_length (x1 x2 y1 y2 : string) :
  String.length y1 = String.length y2 ->
  x1 +:+ y1 = x2 +:+ y2 -> x1 = x2 /\ y1 = y2.
Proof.
  intros Hlen. revert x2. induction x1 as [|c x1 IH]; intros [|c2 x2]; simpl.
  - done.
  - intros H. apply (f_equal String.length) in H.
    rewrite !string_length_append in H. simpl in H. lia.
  - intros H. apply (f_equal String.length) in H.
    rewrite !string_length_append in H. simpl in H. lia.
  - intros [= -> H]. destruct (IH _ H) as [-> ->]. done.
Qed.

Section ConstructionMore.

Context {Scope Callable : Type}.
Variable protect_name : string -> string.

Implicit Types self : gmap string (@Task.value Scope Callable).
Implicit Types l input : list (DataSource.t Scope).
Implicit Types output : option (list (DataSource.t Scope)).
Implicit Types a b d : DataSource.t Scope.

(** X1: the identifier passed to the constructor is the id of the task, as
    it is, exactly when it is not the empty string, whatever the config
    name and the token of the call are. *)
Theorem explicit_id_is_kept_iff_nonempty self config_name input
    (function : Callable) output (X : string) parent_id uuid4 :
  Task.id (Task.__init__ protect_name self config_name input function output
             (Some X) parent_id uuid4) = Py.Ok X
  <-> X <> "".
Proof.
  rewrite init_id. split.
  - intros H ->. simpl in H. discriminate H.
  - intros HX. by destruct X.
Qed.

(** X2: the id of a constructed task is a string and never the empty one,
    whatever was passed for it. *)
Theorem id_is_never_empty self config_name input (function : Callable) output id
    parent_id uuid4 :
  exists i,
    Task.id (Task.__init__ protect_name self config_name input function output
               id parent_id uuid4) = Py.Ok i
    /\ i <> "".
Proof.
  eexists. split; [apply init_id|].
  destruct id as [[|c s]|]; simpl; discriminate.
Qed.

(** X3: with tokens of one length, as the 36 characters of a uuid, two
    synthesized ids are equal exactly when the sanitized config names and
    the tokens are. *)
Theorem synthesized_ids_equal_iff self1 self2 n1 n2 input1 input2
    (f1 f2 : Callable) output1 output2 p1 p2 u1 u2 :
  String.length u1 = String.length u2 ->
  Task.id (Task.__init__ protect_name self1 n1 input1 f1 output1 None p1 u1)
  = Task.id (Task.__init__ protect_name self2 n2 input2 f2 output2 None p2 u2)
  <-> protect_name n1 = protect_name n2 /\ u1 = u2.
Proof.
  intros Hlen. rewrite !init_id. simpl. split.
  - intros [= H].
    assert (Htail : String.length ("_" +:+ u1) = String.length ("_" +:+ u2))
      by (change (S (String.length u1) = S (String.length u2)); congruence).
    destruct (append_eq_same_tail_length _ _ _ _ Htail H) as [Hn [= Hu]]. done.
  - by intros [-> ->].
Qed.

(** The keys of the mapping are the config names of the sequence. *)
Lemma dict_dom l :
  dom (Task.dict_by_config_name l)
  = list_to_set (DataSource.config_name <$> l).
Proof.
  induction l as [|x l IH] using rev_ind; [apply dom_empty_L|].
  rewrite dict_snoc, dom_insert_L, IH, fmap_app, list_to_set_app_L. simpl.
  apply set_eq. intros k.
  rewrite !elem_of_union, elem_of_singleton, elem_of_empty. tauto.
Qed.

Lemma dict_size_le l : size (Task.dict_by_config_name l) <= length l.
Proof.
  induction l as [|x l IH] using rev_ind; [done|].
  rewrite dict_snoc, map_size_insert, length_app. simpl.
  destruct (Task.dict_by_config_name l !! DataSource.config_name x); simpl; lia.
Qed.

Lemma dict_names_None l k :
  Task.dict_by_config_name l !! k = None <-> k ∉ DataSource.config_name <$> l.
Proof.
  rewrite <- not_elem_of_dom, dict_dom, elem_of_list_to_set. done.
Qed.

Lemma dict_size_NoDup l :
  size (Task.dict_by_config_name l) = length l
  <-> NoDup (DataSource.config_name <$> l).
Proof.
  induction l as [|x l IH] using rev_ind.
  { split; [constructor | done]. }
  rewrite dict_snoc, map_size_insert, length_app, fmap_app. simpl.
  pose proof (dict_size_le l) as Hle.
  destruct (Task.dict_by_config_name l !! DataSource.config_name x) as [y|] eqn:Hx;
    simpl.
  - split; [lia|]. intros (_ & Hnot & _)%list.NoDup_app.
    assert (Hin : DataSource.config_name x ∈ DataSource.config_name <$> l).
    { destruct (decide (DataSource.config_name x ∈ DataSource.config_name <$> l))
        as [|Hn]; [done|].
      apply dict_names_None in Hn. congruence. }
    destruct (Hnot _ Hin). constructor.
  - apply dict_names_None in Hx. split.
    + intros Hsz. apply list.NoDup_app. split; [apply IH; lia|]. split.
      * intros k Hk Hk'. apply list_elem_of_singleton in Hk'. by subst k.
      * apply NoDup_singleton.
    + intros (Hnd & _ & _)%list.NoDup_app. apply IH in Hnd. lia.
Qed.

(** Under pairwise distinct names every element is found under its name. *)
Lemma dict_lookup_NoDup l d :
  NoDup (DataSource.config_name <$> l) -> d ∈ l ->
  Task.dict_by_config_name l !! DataSource.config_name d = Some d.
Proof.
  induction l as [|x l IH] using rev_ind; [by intros _ ?%elem_of_nil|].
  rewrite fmap_app. simpl. intros (Hnd & Hnot & _)%list.NoDup_app Hd.
  rewrite dict_snoc. apply elem_of_app in Hd as [Hd | Hd].
  - rewrite lookup_insert_ne; [by apply IH|].
    intros Heq. apply (Hnot (DataSource.config_name d)).
    + by apply list_elem_of_fmap_2.
    + rewrite Heq. constructor.
  - apply list_elem_of_singleton in Hd as ->. by rewrite lookup_insert_eq.
Qed.

(** X4: the inputs and the outputs of a constructed task: every entry is an
    element of the sequence passed, filed under its own config name; the
    keys are the config names of the sequence; there are at most as many
    entries as elements. *)
Theorem bindings_are_filed_by_name self config_name input (function : Callable)
    output id parent_id uuid4 :
  let t := Task.__init__ protect_name self config_name input function output id
             parent_id uuid4 in
  exists inp out,
    Task.input t = Py.Ok inp /\ Task.output t = Py.Ok out
    /\ (forall k d, inp !! k = Some d -> d ∈ input /\ DataSource.config_name d = k)
    /\ (forall k d, out !! k = Some d ->
                    d ∈ default [] output /\ DataSource.config_name d = k)
    /\ dom inp = list_to_set (DataSource.config_name <$> input)
    /\ dom out = list_to_set (DataSource.config_name <$> default [] output)
    /\ size inp <= length input
    /\ size out <= length (default [] output).
Proof.
  intros t. do 2 eexists.
  split; [apply init_input|]. split; [apply init_output|].
  split; [intros k d; apply dict_lookup_Some|].
  split; [intros k d; apply dict_lookup_Some|].
  split; [apply dict_dom|]. split; [apply dict_dom|].
  split; apply dict_size_le.
Qed.

(** X5: no input is dropped exactly when the config names of the inputs are
    pairwise distinct; every input is then found under its own name. *)
Theorem no_input_dropped_iff_distinct_names self config_name input
    (function : Callable) output id parent_id uuid4 :
  exists inp,
    Task.input (Task.__init__ protect_name self config_name input function output
                  id parent_id uuid4) = Py.Ok inp
    /\ (size inp = length input <-> NoDup (DataSource.config_name <$> input))
    /\ (NoDup (DataSource.config_name <$> input) ->
        forall d, d ∈ input -> inp !! DataSource.config_name d = Some d).
Proof.
  eexists. split; [apply init_input|].
  split; [apply dict_size_NoDup|].
  intros Hnd d Hd. by apply dict_lookup_NoDup.
Qed.

(** X6: with pairwise distinct config names the order of the inputs does not
    matter: a rearranged sequence gives the same mapping. *)
Theorem input_order_is_irrelevant_for_distinct_names self config_name input1 input2
    (function : Callable) output id parent_id uuid4 :
  NoDup (DataSource.config_name <$> input1) ->
  input1 ≡ₚ input2 ->
  Task.input (Task.__init__ protect_name self config_name input1 function output
                id parent_id uuid4)
  = Task.input (Task.__init__ protect_name self config_name input2 function output
                  id parent_id uuid4).
Proof.
  intros Hnd Hperm. rewrite !init_input. f_equal. apply map_eq. intros k.
  assert (Hnd2 : NoDup (DataSource.config_name <$> input2)) by by rewrite <- Hperm.
  destruct (Task.dict_by_config_name input1 !! k) as [d|] eqn:H1.
  - apply dict_lookup_Some in H1 as [Hd <-]. symmetry.
    apply dict_lookup_NoDup; [done|]. by rewrite <- Hperm.
  - symmetry. apply dict_names_None. apply dict_names_None in H1.
    by rewrite <- Hperm.
Qed.

End ConstructionMore.

(* ===================================================================== *)
(** ** Further properties of attribute-style access                        *)
(* ===================================================================== *)

Section AccessMore.

Context {Scope Callable : Type}.
Variable protect_name : string -> string.

Implicit Types self : gmap string (@Task.value Scope Callable).
Implicit Types input : list (DataSource.t Scope).
Implicit Types output : option (list (DataSource.t Scope)).
Implicit Types d : DataSource.t Scope.

(** X7: two names with one sanitized form give the same data source or the
    same exception, on every instance; only the logged record tells them
    apart. *)
Theorem access_depends_on_sanitized_name self n1 n2 log :
  protect_name n1 = protect_name n2 ->
  (Task.__getattr__ protect_name self n1 log).1
  = (Task.__getattr__ protect_name self n2 log).1.
Proof.
  intros Heq.
  unfold Task.__getattr__, Py.bind, Py.lift, Py.logging_error, Py.raise.
  rewrite Heq.
  destruct (Task.input self) as [inp|e]; [|done].
  destruct (Py.contains inp (protect_name n2)); [done|].
  destruct (Task.output self) as [out|e]; [|done].
  destruct (Py.contains out (protect_name n2)); [done|].
  by destruct (Task.id self).
Qed.

(** X8: the inputs are looked up first: a data source that is not among the
    inputs and carries the config name of an input is returned under no
    name, even when it is bound as an output. *)
Theorem input_shadows_output self0 config_name input (function : Callable)
    output id parent_id uuid4 d_in d_out :
  d_in ∈ input ->
  d_out ∉ input ->
  DataSource.config_name d_in = DataSource.config_name d_out ->
  forall n log,
    (Task.__getattr__ protect_name
       (Task.__init__ protect_name self0 config_name input function output id
          parent_id uuid4) n log).1
    <> Py.Ok d_out.
Proof.
  intros Hin Hnot Hname n log. rewrite getattr_constructed.
  destruct (Task.dict_by_config_name input !! protect_name n) as [x|] eqn:Hi.
  - simpl. intros [= ->]. apply dict_lookup_Some in Hi as [Hx _]. done.
  - destruct (Task.dict_by_config_name (default [] output) !! protect_name n)
      as [x|] eqn:Ho; simpl; [|discriminate].
    intros [= ->]. apply dict_lookup_Some in Ho as [_ Hk].
    apply dict_lookup_is_Some in Hin as [y Hy].
    rewrite Hname, Hk in Hy. congruence.
Qed.

(** X9: on a blank instance and on an instance whose inputs, outputs and id
    are bound: a record is logged exactly when AttributeError is raised,
    and then exactly one; the records logged before are kept; and the
    subscripts [self.input[...]] and [self.output[...]] never raise
    KeyError, the membership tests guard them. *)
Theorem access_logs_exactly_on_attribute_error self n log :
  self = Task.__new__
  \/ (exists inp out i, Task.input self = Py.Ok inp /\ Task.output self = Py.Ok out
                        /\ Task.id self = Py.Ok i) ->
  (((Task.__getattr__ protect_name self n log).1 = Py.Raise Py.AttributeError
    /\ exists msg, (Task.__getattr__ protect_name self n log).2 = log ++ [msg])
   \/ ((Task.__getattr__ protect_name self n log).1 <> Py.Raise Py.AttributeError
       /\ (Task.__getattr__ protect_name self n log).2 = log))
  /\ (Task.__getattr__ protect_name self n log).1 <> Py.Raise Py.KeyError.
Proof.
  intros [-> | (inp & out & i & Hi & Ho & Hid)].
  - split; [right; split|]; done.
  - rewrite (getattr_eq protect_name self inp out i n log Hi Ho Hid).
    destruct (inp !! protect_name n) as [d|];
      [split; [right; split|]; done|].
    destruct (out !! protect_name n) as [d|];
      [split; [right; split|]; done|].
    simpl. split; [left; eauto | done].
Qed.

End AccessMore.

(* ===================================================================== *)
(** ** Further properties of the scope                                     *)
(* ===================================================================== *)

Section ScopeMore.

Context {Scope Callable : Type}.
Variable protect_name : string -> string.
Variable scope_lt : Scope -> Scope -> bool.
Variable GLOBAL : Scope.

Implicit Types self : gmap string (@Task.value Scope Callable).
Implicit Types inp out : gmap string (DataSource.t Scope).
Implicit Types input : list (DataSource.t Scope).
Implicit Types output : option (list (DataSource.t Scope)).

(** X10: the scope of a constructed task is defined, for every comparison on
    scopes: [min] never sees an empty sequence. *)
Theorem scope_of_constructed_is_defined self0 config_name input
    (function : Callable) output id parent_id uuid4 :
  exists s,
    Task.scope scope_lt GLOBAL
      (Task.__init__ protect_name self0 config_name input function output id
         parent_id uuid4) = Py.Ok s.
Proof.
  unfold Task.scope. rewrite init_input, init_output.
  destruct (Py.values (Task.dict_by_config_name input)
            ++ Py.values (Task.dict_by_config_name (default [] output)));
    simpl; eauto.
Qed.

Lemma min_loop_constant (s : Scope) (rest : list Scope) :
  Forall (fun y => y = s) rest ->
  fold_left (fun m y => if scope_lt y m then y else m) rest s = s.
Proof.
  induction 1 as [|y rest -> _ IH]; simpl; [done|].
  by destruct (scope_lt s s).
Qed.

(** X11: when every bound data source has the scope s, and there is one, the
    scope of the task is s, whatever the comparison on scopes answers. *)
Theorem scope_of_uniform_bindings self inp out s :
  Task.input self = Py.Ok inp ->
  Task.output self = Py.Ok out ->
  ~ (inp = ∅ /\ out = ∅) ->
  (forall k d, inp !! k = Some d \/ out !! k = Some d -> DataSource.scope d = s) ->
  Task.scope scope_lt GLOBAL self = Py.Ok s.
Proof.
  intros Hinp Hout Hne Hall. unfold Task.scope. rewrite Hinp, Hout.
  assert (Hs : Forall (fun y => y = s)
                 (DataSource.scope <$> (Py.values inp ++ Py.values out))).
  { apply Forall_fmap, list.Forall_forall. intros d Hd. simpl.
    apply elem_of_app in Hd as [Hd | Hd]; apply elem_of_values in Hd as [k Hk];
      eauto. }
  destruct (Py.values inp ++ Py.values out) as [|x rest] eqn:Hds.
  { apply app_eq_nil in Hds as [Hi Ho]. destruct Hne.
    split; by apply values_nil. }
  simpl. simpl in Hs. apply list.Forall_cons in Hs as [-> Hs].
  by rewrite min_loop_constant.
Qed.

Section TotalOrder.

Hypothesis scope_lt_trans :
  forall a b c, scope_lt a b = true -> scope_lt b c = true -> scope_lt a c = true.
Hypothesis scope_lt_total :
  forall a b, a = b \/ scope_lt a b = true \/ scope_lt b a = true.

(** X12: inputs and outputs count alike: the task with the two sequences
    exchanged has the same scope. *)
Theorem scope_of_exchanged_bindings self1 self2 n1 n2 (l1 l2 : list (DataSource.t Scope))
    (f1 f2 : Callable) id1 id2 p1 p2 u1 u2 :
  (forall a, scope_lt a a = false) ->
  Task.scope scope_lt GLOBAL
    (Task.__init__ protect_name self1 n1 l1 f1 (Some l2) id1 p1 u1)
  = Task.scope scope_lt GLOBAL
      (Task.__init__ protect_name self2 n2 l2 f2 (Some l1) id2 p2 u2).
Proof.
  intros Hirr. unfold Task.scope. rewrite !init_input, !init_output. simpl.
  set (v1 := Py.values (Task.dict_by_config_name l1)).
  set (v2 := Py.values (Task.dict_by_config_name l2)).
  assert (Hperm : v1 ++ v2 ≡ₚ v2 ++ v1) by apply Permutation_app_comm.
  rewrite (Permutation_length Hperm).
  rewrite (min_permutation scope_lt scope_lt_trans scope_lt_total
             (DataSource.scope <$> v1 ++ v2) (DataSource.scope <$> v2 ++ v1) Hirr);
    [done|].
  by rewrite Hperm.
Qed.

(** X13: binding more can only lower the scope: when every binding of one
    instance is a binding of another, and the first has a binding, the
    scope of the second is the scope of the first or below it. *)
Theorem scope_is_antitone self self' inp out inp' out' :
  Task.input self = Py.Ok inp -> Task.output self = Py.Ok out ->
  Task.input self' = Py.Ok inp' -> Task.output self' = Py.Ok out' ->
  inp ⊆ inp' -> out ⊆ out' ->
  ~ (inp = ∅ /\ out = ∅) ->
  exists s s',
    Task.scope scope_lt GLOBAL self = Py.Ok s
    /\ Task.scope scope_lt GLOBAL self' = Py.Ok s'
    /\ (s' = s \/ scope_lt s' s = true).
Proof.
  intros Hinp Hout Hinp' Hout' Hsubi Hsubo Hne.
  unfold Task.scope. rewrite Hinp, Hout, Hinp', Hout'.
  assert (Hsub : forall d, d ∈ Py.values inp ++ Py.values out ->
                           d ∈ Py.values inp' ++ Py.values out').
  { intros d [Hd | Hd]%elem_of_app; apply elem_of_values in Hd as [k Hk];
      apply elem_of_app; [left | right]; apply elem_of_values; exists k;
      eapply lookup_weaken; eauto. }
  destruct (Py.values inp ++ Py.values out) as [|x rest] eqn:Hds.
  { apply app_eq_nil in Hds as [Hi Ho]. destruct Hne.
    split; by apply values_nil. }
  destruct (Py.values inp' ++ Py.values out') as [|x' rest'] eqn:Hds'.
  { specialize (Hsub x). rewrite elem_of_nil in Hsub. destruct Hsub. constructor. }
  simpl.
  destruct (min_loop_least scope_lt scope_lt_trans scope_lt_total
              (DataSource.scope <$> rest) (DataSource.scope x)) as [Hin _].
  destruct (min_loop_least scope_lt scope_lt_trans scope_lt_total
              (DataSource.scope <$> rest') (DataSource.scope x')) as [_ Hleast].
  do 2 eexists. split; [reflexivity|]. split; [reflexivity|].
  apply Hleast.
  change (DataSource.scope x :: (DataSource.scope <$> rest))
    with (DataSource.scope <$> (x :: rest)) in Hin.
  change (DataSource.scope x' :: (DataSource.scope <$> rest'))
    with (DataSource.scope <$> (x' :: rest')).
  apply list_elem_of_fmap in Hin as (d & Heq & Hd).
  apply list_elem_of_fmap. exists d. split; [exact Heq | by apply Hsub].
Qed.

End TotalOrder.
End ScopeMore.

(* ===================================================================== *)
(** ** Further properties of the pickling hooks and of identity            *)
(* ===================================================================== *)


Section PicklingMore.

Context {Scope Callable : Type}.
Variable protect_name : string -> string.
Variable scope_lt : Scope -> Scope -> bool.
Variable GLOBAL : Scope.
Variable hash : string -> Z.

Implicit Types self state : gmap string (@Task.value Scope Callable).
Implicit Types heap : gmap nat (gmap string (@Task.value Scope Callable)).

(** X14: restoring an instance from its own snapshot changes nothing; restoring
    a snapshot a second time changes nothing more; two restores in a row
    are one restore of the first snapshot updated by the second. *)
Theorem restores_compose self s1 s2 :
  Task.__setstate__ self (Task.__getstate__ self) = self
  /\ Task.__setstate__ (Task.__setstate__ self s1) s1 = Task.__setstate__ self s1
  /\ Task.__setstate__ (Task.__setstate__ self s1) s2
     = Task.__setstate__ self (Task.__setstate__ s1 s2).
Proof.
  unfold Task.__getstate__. repeat split; apply map_eq; intros k;
    rewrite !setstate_lookup.
  - by destruct (self !! k).
  - by destruct (s1 !! k).
  - by destruct (s2 !! k).
Qed.

(** X15: the id and the hash of an instance are those of the snapshot last
    restored into it, whatever they were before. *)
Theorem hash_follows_restored_id self state i :
  Task.id state = Py.Ok i ->
  Task.id (Task.__setstate__ self state) = Py.Ok i
  /\ Task.__hash__ hash (Task.__setstate__ self state) = Py.Ok (hash i).
Proof.
  intros Hid.
  assert (Hi : Task.id (Task.__setstate__ self state) = Py.Ok i).
  { revert Hid. unfold Task.id, Task.attr_str. rewrite setstate_lookup.
    by destruct (state !! "id"). }
  split; [exact Hi|]. unfold Task.__hash__. by rewrite Hi.
Qed.


(** X17: a set or a dict takes two instances for one key exactly when they are
    one instance, whatever their ids are. *)
Theorem key_equality_is_instance_identity heap a b ta tb ia ib :
  heap !! a = Some ta -> heap !! b = Some tb ->
  Task.id ta = Py.Ok ia -> Task.id tb = Py.Ok ib ->
  Task.same_key hash heap a b = Py.Ok true <-> a = b.
Proof.
  intros Ha Hb Hia Hib.
  rewrite (same_key_is_identity hash heap a b (hash ia) (hash ib)).
  - split.
    + intros [= H]. by apply bool_decide_eq_true in H.
    + intros ->. by rewrite bool_decide_true.
  - unfold Task.hash_at, Task.__hash__. by rewrite Ha, Hia.
  - unfold Task.hash_at, Task.__hash__. by rewrite Hb, Hib.
Qed.

(** X18: a task reloaded from its snapshot into a second instance has the id and
    the hash of the original and is not the same key. *)
Theorem reloaded_copy_is_another_key (a b : nat) config_name
    (input : list (DataSource.t Scope)) (function : Callable) output id parent_id
    uuid4 :
  a <> b ->
  let original :=
    Task.__init__ protect_name Task.__new__ config_name input function output id
      parent_id uuid4 in
  let copy := Task.__setstate__ Task.__new__ (Task.__getstate__ original) in
  let heap := <[a := original]> (<[b := copy]> ∅) in
  Task.id copy = Task.id original
  /\ Task.hash_at hash heap a = Task.hash_at hash heap b
  /\ (exists h, Task.hash_at hash heap a = Py.Ok h)
  /\ Task.same_key hash heap a b = Py.Ok false.
Proof.
  intros Hab original copy heap.
  assert (Hcopy : copy = original).
  { subst copy. unfold Task.__getstate__.
    apply (proj2 (setstate_replaces_iff protect_name Task.__new__ original)).
    apply elem_of_subseteq. intros k [v Hv]%elem_of_dom.
    unfold Task.__new__ in Hv. by rewrite lookup_empty in Hv. }
  assert (Ha : heap !! a = Some original) by (subst heap; by simplify_map_eq).
  assert (Hb : heap !! b = Some copy) by (subst heap; by simplify_map_eq).
  assert (Hid : exists i, Task.id original = Py.Ok i).
  { eexists. subst original. apply init_id. }
  destruct Hid as [i Hi].
  assert (Hha : Task.hash_at hash heap a = Py.Ok (hash i)).
  { unfold Task.hash_at, Task.__hash__. by rewrite Ha, Hi. }
  assert (Hhb : Task.hash_at hash heap b = Py.Ok (hash i)).
  { unfold Task.hash_at, Task.__hash__. by rewrite Hb, Hcopy, Hi. }
  split; [by rewrite Hcopy|]. split; [by rewrite Hha, Hhb|].
  split; [eauto|].
  rewrite (same_key_is_identity hash heap a b _ _ Hha Hhb).
  by rewrite bool_decide_false.
Qed.

End PicklingMore.

(* ===================================================================== *)
(** ** The further properties on the examples                              *)
(* ===================================================================== *)

Lemma example_names_distinct :
  NoDup (DataSource.config_name <$> [Examples.sales; Examples.costs]).
Proof.
  simpl. apply NoDup_cons_2; [|apply NoDup_singleton].
  intros H%list_elem_of_singleton. discriminate H.
Qed.

Lemma explicit_id_is_kept_iff_nonempty_witness :
  "T1" <> ""
  /\ Task.id (Task.__init__ Examples.sanitize Examples.blank "plan"
                [Examples.sales] 7%nat None (Some "T1") None "0b6e")
     = Py.Ok "T1".
Proof.
  split; [discriminate|].
  apply (explicit_id_is_kept_iff_nonempty Examples.sanitize Examples.blank "plan"
           [Examples.sales] 7%nat None "T1" None "0b6e").
  discriminate.
Defined.

Lemma synthesized_ids_equal_iff_witness :
  String.length "0b6e" = String.length "1f0e"
  /\ (Task.id (Task.__init__ Examples.sanitize Examples.blank "plan"
                 [Examples.sales] 7%nat None None None "0b6e")
      = Task.id (Task.__init__ Examples.sanitize Examples.blank "plan"
                   [Examples.costs] 8%nat None None None "1f0e")
      <-> Examples.sanitize "plan" = Examples.sanitize "plan" /\ "0b6e" = "1f0e").
Proof.
  split; [reflexivity|].
  apply (synthesized_ids_equal_iff Examples.sanitize Examples.blank Examples.blank
           "plan" "plan" [Examples.sales] [Examples.costs] 7%nat 8%nat None None
           None None "0b6e" "1f0e").
  reflexivity.
Defined.

Lemma bindings_are_filed_by_name_witness :
  exists inp,
    Task.input Examples.plan = Py.Ok inp
    /\ inp !! "sales" = Some Examples.sales
    /\ Examples.sales ∈ [Examples.sales; Examples.costs]
    /\ DataSource.config_name Examples.sales = "sales".
Proof.
  pose proof (bindings_are_filed_by_name Examples.sanitize Examples.blank "plan"
                [Examples.sales; Examples.costs] 7%nat (Some [Examples.report])
                None None "0b6e7a51-3a0c-4c43-9d8e-5d1a2f1c9e77") as H.
  simpl in H. destruct H as (inp & out & Hi & _ & Hfiled & _).
  exists inp. split; [exact Hi|].
  assert (Hs : inp !! "sales" = Some Examples.sales).
  { injection Hi as <-. reflexivity. }
  split; [exact Hs|]. exact (Hfiled _ _ Hs).
Defined.

Lemma no_input_dropped_iff_distinct_names_witness :
  NoDup (DataSource.config_name <$> [Examples.sales; Examples.costs])
  /\ exists inp,
       Task.input Examples.plan = Py.Ok inp
       /\ size inp = 2
       /\ inp !! "costs" = Some Examples.costs.
Proof.
  split; [exact example_names_distinct|].
  destruct (no_input_dropped_iff_distinct_names Examples.sanitize Examples.blank
              "plan" [Examples.sales; Examples.costs] 7%nat
              (Some [Examples.report]) None None
              "0b6e7a51-3a0c-4c43-9d8e-5d1a2f1c9e77") as (inp & Hi & Hsize & Hall).
  exists inp. split; [exact Hi|]. split.
  - apply (proj2 Hsize). exact example_names_distinct.
  - apply (Hall example_names_distinct Examples.costs).
    apply elem_of_cons. right. constructor.
Defined.

Lemma input_order_is_irrelevant_for_distinct_names_witness :
  NoDup (DataSource.config_name <$> [Examples.sales; Examples.costs])
  /\ [Examples.sales; Examples.costs] ≡ₚ [Examples.costs; Examples.sales]
  /\ Task.input (Task.__init__ Examples.sanitize Examples.blank "plan"
                   [Examples.sales; Examples.costs] 7%nat None None None "0b6e")
     = Task.input (Task.__init__ Examples.sanitize Examples.blank "plan"
                     [Examples.costs; Examples.sales] 7%nat None None None "0b6e").
Proof.
  split; [exact example_names_distinct|]. split; [apply perm_swap|].
  apply (input_order_is_irrelevant_for_distinct_names Examples.sanitize
           Examples.blank "plan" [Examples.sales; Examples.costs]
           [Examples.costs; Examples.sales] 7%nat None None None "0b6e"
           example_names_distinct).
  apply perm_swap.
Defined.

Lemma access_depends_on_sanitized_name_witness :
  Examples.sanitize "a b" = Examples.sanitize "a_b"
  /\ (Task.__getattr__ Examples.sanitize Examples.shadowed "a b" []).1
     = (Task.__getattr__ Examples.sanitize Examples.shadowed "a_b" []).1.
Proof.
  split; [reflexivity|].
  apply (access_depends_on_sanitized_name Examples.sanitize Examples.shadowed
           "a b" "a_b" []).
  reflexivity.
Defined.

Lemma input_shadows_output_witness :
  (Examples.sales ∈ [Examples.sales])
  /\ (Examples.sales_copy ∉ [Examples.sales])
  /\ DataSource.config_name Examples.sales
     = DataSource.config_name Examples.sales_copy
  /\ forall n log,
       (Task.__getattr__ Examples.sanitize
          (Task.__init__ Examples.sanitize Examples.blank "plan" [Examples.sales]
             7%nat (Some [Examples.sales_copy]) None None "0b6e") n log).1
       <> Py.Ok Examples.sales_copy.
Proof.
  assert (Hnot : Examples.sales_copy ∉ [Examples.sales]).
  { intros H%list_elem_of_singleton. discriminate H. }
  split; [constructor|]. split; [exact Hnot|]. split; [reflexivity|].
  apply (input_shadows_output Examples.sanitize Examples.blank "plan"
           [Examples.sales] 7%nat (Some [Examples.sales_copy]) None None "0b6e"
           Examples.sales Examples.sales_copy);
    [constructor | exact Hnot | reflexivity].
Defined.

Lemma scope_of_uniform_bindings_witness :
  Task.input Examples.shadowed
  = Py.Ok (Task.dict_by_config_name [Examples.raw_named; Examples.clean_named])
  /\ Task.output Examples.shadowed = Py.Ok (Task.dict_by_config_name [])
  /\ Task.scope (fun _ _ => true) Data.GLOBAL Examples.shadowed
     = Py.Ok Data.SCENARIO.
Proof.
  split; [reflexivity|]. split; [reflexivity|].
  apply (scope_of_uniform_bindings (fun _ _ => true) Data.GLOBAL Examples.shadowed
           (Task.dict_by_config_name [Examples.raw_named; Examples.clean_named])
           (Task.dict_by_config_name []) Data.SCENARIO eq_refl eq_refl).
  - intros [H _]. apply (f_equal (fun m => m !! "a b")) in H. discriminate H.
  - intros k d [H | H]; apply dict_lookup_Some in H as [Hin _].
    + apply elem_of_cons in Hin as [-> | Hin]; [reflexivity|].
      apply list_elem_of_singleton in Hin as ->. reflexivity.
    + by apply elem_of_nil in Hin.
Defined.

Lemma Scope_lt_irrefl (a : Data.Scope) : Data.Scope_lt a a = false.
Proof. by destruct a. Qed.

Lemma scope_of_exchanged_bindings_witness :
  (forall a, Data.Scope_lt a a = false)
  /\ Task.scope Data.Scope_lt Data.GLOBAL
       (Task.__init__ Examples.sanitize Examples.blank "plan"
          [Examples.sales; Examples.costs] 7%nat (Some [Examples.report]) None
          None "0b6e")
     = Task.scope Data.Scope_lt Data.GLOBAL
         (Task.__init__ Examples.sanitize Examples.blank "nalp" [Examples.report]
            8%nat (Some [Examples.sales; Examples.costs]) None None "1f0e").
Proof.
  split; [exact Scope_lt_irrefl|].
  apply (scope_of_exchanged_bindings Examples.sanitize Data.Scope_lt Data.GLOBAL
           Scope_lt_trans Scope_lt_total Examples.blank Examples.blank "plan"
           "nalp" [Examples.sales; Examples.costs] [Examples.report] 7%nat 8%nat
           None None None None "0b6e" "1f0e" Scope_lt_irrefl).
Defined.

Lemma scope_is_antitone_witness :
  exists s s',
    Task.scope Data.Scope_lt Data.GLOBAL
      (Task.__init__ Examples.sanitize Examples.blank "plan" [Examples.sales]
         7%nat None None None "0b6e") = Py.Ok s
    /\ Task.scope Data.Scope_lt Data.GLOBAL Examples.plan = Py.Ok s'
    /\ (s' = s \/ Data.Scope_lt s' s = true).
Proof.
  apply (scope_is_antitone Data.Scope_lt Data.GLOBAL Scope_lt_trans Scope_lt_total
           (Task.__init__ Examples.sanitize Examples.blank "plan" [Examples.sales]
              7%nat None None None "0b6e")
           Examples.plan
           (Task.dict_by_config_name [Examples.sales])
           (Task.dict_by_config_name [])
           (Task.dict_by_config_name [Examples.sales; Examples.costs])
           (Task.dict_by_config_name [Examples.report])
           eq_refl eq_refl eq_refl eq_refl).
  - apply map_subseteq_spec. intros k d Hk.
    apply dict_lookup_Some in Hk as [Hin <-].
    apply list_elem_of_singleton in Hin as ->. reflexivity.
  - apply map_subseteq_spec. intros k d Hk.
    apply dict_lookup_Some in Hk as [Hin _]. by apply elem_of_nil in Hin.
  - intros [H _]. apply (f_equal (fun m => m !! "sales")) in H. discriminate H.
Defined.

Lemma hash_follows_restored_id_witness :
  Task.id Examples.plan = Py.Ok "TASK_plan_0b6e7a51-3a0c-4c43-9d8e-5d1a2f1c9e77"
  /\ Task.__hash__ Examples.length_hash
       (Task.__setstate__ Examples.shadowed (Task.__getstate__ Examples.plan))
     = Py.Ok 46%Z.
Proof.
  split; [reflexivity|].
  apply (hash_follows_restored_id Examples.length_hash Examples.shadowed
           (Task.__getstate__ Examples.plan)
           "TASK_plan_0b6e7a51-3a0c-4c43-9d8e-5d1a2f1c9e77").
  reflexivity.
Defined.

Lemma key_equality_is_instance_identity_witness :
  Task.same_key Examples.length_hash Examples.twins 0 1 = Py.Ok true <-> 0 = 1.
Proof.
  eapply (key_equality_is_instance_identity Examples.length_hash Examples.twins
            0 1); reflexivity.
Defined.

Lemma reloaded_copy_is_another_key_witness :
  0 <> 1
  /\ Task.same_key Examples.length_hash
       (<[0 := Examples.plan]>
          (<[1 := Task.__setstate__ Examples.blank
                    (Task.__getstate__ Examples.plan)]> ∅)) 0 1
     = Py.Ok false.
Proof.
  split; [discriminate|].
  pose proof (reloaded_copy_is_another_key Examples.sanitize Examples.length_hash
                0 1 "plan" [Examples.sales; Examples.costs] 7%nat
                (Some [Examples.report]) None None
                "0b6e7a51-3a0c-4c43-9d8e-5d1a2f1c9e77" ltac:(discriminate)) as H.
  simpl in H. destruct H as (_ & _ & _ & H). exact H.
Defined.

Lemma access_logs_exactly_on_attribute_error_witness :
  (exists inp out i,
      Task.input Examples.plan = Py.Ok inp /\ Task.output Examples.plan = Py.Ok out
      /\ Task.id Examples.plan = Py.Ok i)
  /\ (Task.__getattr__ Examples.sanitize Examples.plan "stock" ["earlier"]).1
     <> Py.Raise Py.KeyError.
Proof.
  assert (H : exists inp out i,
             Task.input Examples.plan = Py.Ok inp
             /\ Task.output Examples.plan = Py.Ok out
             /\ Task.id Examples.plan = Py.Ok i).
  { do 3 eexists. repeat split; reflexivity. }
  split; [exact H|].
  exact (proj2 (access_logs_exactly_on_attribute_error Examples.sanitize
                  Examples.plan "stock" ["earlier"] (or_intror H))).
Defined.
